(** * AgeVerification: the media-acquisition-and-verification controller

    A shallow embedding of [src/components/AgeVerification.tsx].

    The component keeps six pieces of React state ([error], [isProcessing],
    [isCameraActive], [selectedFile], [previewImage], [stream]) and two refs
    ([videoRef], [canvasRef]).  Its handlers ([startCamera], [stopCamera],
    [capturePhoto], [handleFileUpload], [processImage], [resetCapture]) are
    embedded as computations in a small state-and-exception monad; the
    answers of the host environment (camera request, file reader, age
    classifier, persistence request) are arguments of the handlers.  The
    effects on the outside world (stopped tracks, console diagnostics,
    network request, notice, navigation) are recorded in a chronological
    [trace].  The JSX of the component is embedded as the table of controls
    that are rendered and enabled in a given state. *)

From Stdlib Require Import ZArith List String Bool Lia.
From Stdlib Require Import DecimalString.
From Stdlib Require DecimalZ.
Import ListNotations.
Open Scope string_scope.
Open Scope Z_scope.

(** ** Host objects *)

(** A [MediaStreamTrack], identified by a number. *)
Definition Track := nat.

(** A [MediaStream]: what [getTracks()] returns. *)
Record MediaStream := mkMediaStream {
  getTracks : list Track
}.

(** A [File] of the file input: [name], declared MIME [type], byte [size]. *)
Record File := mkFile {
  name : string;
  type : string;
  size : Z
}.

(** The [<video>] element behind [videoRef]. *)
Record VideoElement := mkVideo {
  srcObject : option MediaStream;
  videoWidth : Z;
  videoHeight : Z
}.

(** The [<canvas>] element behind [canvasRef]; [context2d] tells whether
    [getContext('2d')] yields a context (it yields [null] otherwise). *)
Record CanvasElement := mkCanvas {
  context2d : bool;
  width : Z;
  height : Z
}.

(** Effects on the outside world, in the order in which they happen. *)
Inductive Event :=
| TrackStop (t : Track)                              (* track.stop() *)
| ConsoleError (label : string)                      (* console.error(label, err) *)
| FetchPost (url : string) (image : string) (age : Z)(* fetch(url, {method: "POST", body}) *)
| Alert (msg : string)                               (* alert(msg) *)
| RouterPush (url : string).                         (* router.push(url) *)

(** A thrown JavaScript value. *)
Inductive Exn :=
| Error (msg : string)      (* new Error(msg) *)
| HostFailure.              (* a rejection or exception raised by the host *)

(** ** Controller state *)

Record State := mkState {
  error : option string;
  isProcessing : bool;
  isCameraActive : bool;
  selectedFile : option File;
  previewImage : option string;
  stream : option MediaStream;
  videoRef : option VideoElement;
  canvasRef : option CanvasElement;
  trace : list Event
}.

(** The state after the first render: [useState] defaults, [useRef(null)]. *)
Definition initial : State :=
  mkState None false false None None None None None [].

(** JavaScript truthiness of a [string | null]: [null] and the empty string
    are falsy. *)
Definition truthy (o : option string) : bool :=
  match o with
  | Some s => negb (s =? "")%string
  | None => false
  end.

Definition isSome {A : Type} (o : option A) : bool :=
  match o with Some _ => true | None => false end.

(** ** The monad of handlers: state passing with exceptions *)

Inductive Completion (A : Type) :=
| Normal (a : A)
| Thrown (e : Exn).
Arguments Normal {A} a.
Arguments Thrown {A} e.

Definition M (A : Type) := State -> Completion A * State.

Definition ret {A} (a : A) : M A := fun s => (Normal a, s).

Definition bind {A B} (m : M A) (k : A -> M B) : M B :=
  fun s =>
    match m s with
    | (Normal a, s') => k a s'
    | (Thrown e, s') => (Thrown e, s')
    end.

Definition throw {A} (e : Exn) : M A := fun s => (Thrown e, s).

Definition gets {A} (f : State -> A) : M A := fun s => (Normal (f s), s).

Definition modify (f : State -> State) : M unit := fun s => (Normal tt, f s).

Notation "x <- m ;; k" := (bind m (fun x => k))
  (at level 61, m at next level, right associativity).
Notation "m ;; k" := (bind m (fun _ => k))
  (at level 61, right associativity).

(** [try { body } catch (err) { handler }] *)
Definition tryCatch {A} (body : M A) (handler : Exn -> M A) : M A :=
  fun s =>
    match body s with
    | (Normal a, s') => (Normal a, s')
    | (Thrown e, s') => handler e s'
    end.

(** [try { body } catch (err) { handler } finally { fin }] *)
Definition tryCatchFinally {A} (body : M A) (handler : Exn -> M A)
    (fin : M unit) : M A :=
  fun s =>
    let (r, s1) := tryCatch body handler s in
    match fin s1 with
    | (Normal _, s2) => (r, s2)
    | (Thrown e, s2) => (Thrown e, s2)
    end.

(** The state a handler leaves behind. *)
Definition exec {A} (m : M A) (s : State) : State := snd (m s).

(** How a handler completes. *)
Definition completion {A} (m : M A) (s : State) : Completion A := fst (m s).

(** ** State setters and effects *)

Definition setError (v : option string) : M unit :=
  modify (fun s => mkState v (isProcessing s) (isCameraActive s)
    (selectedFile s) (previewImage s) (stream s) (videoRef s) (canvasRef s)
    (trace s)).

Definition setIsProcessing (v : bool) : M unit :=
  modify (fun s => mkState (error s) v (isCameraActive s)
    (selectedFile s) (previewImage s) (stream s) (videoRef s) (canvasRef s)
    (trace s)).

Definition setIsCameraActive (v : bool) : M unit :=
  modify (fun s => mkState (error s) (isProcessing s) v
    (selectedFile s) (previewImage s) (stream s) (videoRef s) (canvasRef s)
    (trace s)).

Definition setSelectedFile (v : option File) : M unit :=
  modify (fun s => mkState (error s) (isProcessing s) (isCameraActive s)
    v (previewImage s) (stream s) (videoRef s) (canvasRef s) (trace s)).

Definition setPreviewImage (v : option string) : M unit :=
  modify (fun s => mkState (error s) (isProcessing s) (isCameraActive s)
    (selectedFile s) v (stream s) (videoRef s) (canvasRef s) (trace s)).

Definition setStream (v : option MediaStream) : M unit :=
  modify (fun s => mkState (error s) (isProcessing s) (isCameraActive s)
    (selectedFile s) (previewImage s) v (videoRef s) (canvasRef s) (trace s)).

(** Assignment to a property of [videoRef.current]. *)
Definition setVideo (v : option VideoElement) : M unit :=
  modify (fun s => mkState (error s) (isProcessing s) (isCameraActive s)
    (selectedFile s) (previewImage s) (stream s) v (canvasRef s) (trace s)).

(** Assignment to a property of [canvasRef.current]. *)
Definition setCanvas (c : option CanvasElement) : M unit :=
  modify (fun s => mkState (error s) (isProcessing s) (isCameraActive s)
    (selectedFile s) (previewImage s) (stream s) (videoRef s) c (trace s)).

Definition emit (evs : list Event) : M unit :=
  modify (fun s => mkState (error s) (isProcessing s) (isCameraActive s)
    (selectedFile s) (previewImage s) (stream s) (videoRef s) (canvasRef s)
    (trace s ++ evs)).

(** [navigator.mediaDevices.getUserMedia(...)]: resolves with a stream or
    rejects (permission denied, no device, device busy). *)
Definition getUserMedia (answer : option MediaStream) : M MediaStream :=
  match answer with
  | Some mediaStream => ret mediaStream
  | None => throw HostFailure
  end.

(** ** Device manager: [startCamera] and [stopCamera] *)

Definition cameraErrorMessage : string :=
  "Impossible d'accéder à la caméra. Veuillez autoriser l'accès ou utiliser l'option de téléchargement.".

Definition startCamera (answer : option MediaStream) : M unit :=
  tryCatch
    (mediaStream <- getUserMedia answer ;;
     current <- gets videoRef ;;
     match current with
     | Some video =>
         setVideo (Some (mkVideo (Some mediaStream)
                           (videoWidth video) (videoHeight video))) ;;
         setStream (Some mediaStream) ;;
         setIsCameraActive true ;;
         setError None ;;
         setPreviewImage None
     | None => ret tt
     end)
    (fun err =>
       emit [ConsoleError "Camera error:"] ;;
       setError (Some cameraErrorMessage)).

(** The body of [stopCamera]; [held] is the value of [stream] in the render
    whose closure is called. *)
Definition stopCameraWith (held : option MediaStream) : M unit :=
  match held with
  | Some mediaStream =>
      emit (map TrackStop (getTracks mediaStream)) ;;
      setStream None
  | None => ret tt
  end ;;
  current <- gets videoRef ;;
  match current with
  | Some video =>
      setVideo (Some (mkVideo None (videoWidth video) (videoHeight video)))
  | None => ret tt
  end ;;
  setIsCameraActive false.

(** [stopCamera] as the current render defines it. *)
Definition stopCamera : M unit :=
  held <- gets stream ;;
  stopCameraWith held.

(** ** Capture pipeline: [capturePhoto] *)

Definition captureErrorMessage : string :=
  "Erreur lors de la capture de la photo. Veuillez réessayer.".

(** [frame] is what [canvas.toDataURL('image/jpeg', 0.8)] returns for the
    frame drawn on the canvas. *)
Definition capturePhoto (frame : string) : M unit :=
  v <- gets videoRef ;;
  c <- gets canvasRef ;;
  match v, c with
  | Some video, Some canvas =>
      tryCatch
        (if context2d canvas then
           setCanvas (Some (mkCanvas (context2d canvas)
                              (videoWidth video) (videoHeight video))) ;;
           setPreviewImage (Some frame) ;;
           stopCamera
         else
           throw (Error "Impossible d'initialiser le contexte canvas"))
        (fun err =>
           emit [ConsoleError "Capture error:"] ;;
           setError (Some captureErrorMessage))
  | _, _ => ret tt
  end.

(** ** Validator and capture pipeline: [handleFileUpload] *)

(** The two rejection reasons of the checks of [handleFileUpload]. *)
Inductive Rejection :=
| NotAnImage     (* !file.type.startsWith('image/') *)
| TooLarge.      (* file.size > 5 * 1024 * 1024 *)

Definition maxFileSize : Z := 5 * 1024 * 1024.

(** The validation part of [handleFileUpload] (the spec's [validate]):
    [None] is a pass. *)
Definition validate (file : File) : option Rejection :=
  if negb (String.prefix "image/" (type file)) then Some NotAnImage
  else if size file >? maxFileSize then Some TooLarge
  else None.

Definition rejectionMessage (r : Rejection) : string :=
  match r with
  | NotAnImage => "Veuillez sélectionner une image valide."
  | TooLarge => "L'image est trop volumineuse. Taille maximum: 5MB"
  end.

Definition uploadErrorMessage : string :=
  "Erreur lors du traitement de l'image. Veuillez réessayer.".

(** What the [FileReader] does with [readAsDataURL(file)]. *)
Inductive ReadAnswer :=
| Loaded (result : option string)  (* onload fires, event.target.result *)
| ReadError                        (* onerror fires *)
| ReadRefused.                     (* readAsDataURL itself throws *)

(** [reader.readAsDataURL(file)] together with the callback that fires.
    The exception of the [onerror] callback is raised in the reader's own
    task, outside the [try] block of the handler: no [catch] sees it and
    the state is left as it is. *)
Definition readAsDataURL (answer : ReadAnswer) : M unit :=
  match answer with
  | Loaded result =>
      if truthy result then setPreviewImage result else ret tt
  | ReadError => ret tt
  | ReadRefused => throw HostFailure
  end.

(** [files] is [e.target.files?.[0]]. *)
Definition handleFileUpload (files : option File) (answer : ReadAnswer)
    : M unit :=
  match files with
  | None => ret tt
  | Some file =>
      setError None ;;
      setSelectedFile (Some file) ;;
      match validate file with
      | Some reason => setError (Some (rejectionMessage reason))
      | None =>
          tryCatch
            (readAsDataURL answer)
            (fun err =>
               emit [ConsoleError "Upload error:"] ;;
               setError (Some uploadErrorMessage))
      end
  end.

(** ** Verification orchestrator: [processImage] and [resetCapture] *)

(** The text of [detectedAge] in a template literal.  The classifier's age
    is an integer; for an integer of magnitude below 10^21 the text is its
    decimal numeral, with a minus sign when negative.  From 10^21 on
    JavaScript prints a number in exponent notation, which this definition
    does not follow: statements about the text of an age are made below
    that bound. *)
Definition numberToString (n : Z) : string :=
  NilZero.string_of_int (Z.to_int n).

Definition inRange (detectedAge : Z) : bool :=
  (13 <=? detectedAge) && (detectedAge <=? 17).

Definition confirmationMessage (detectedAge : Z) : string :=
  "Âge confirmé: " ++ numberToString detectedAge
    ++ " ans. Redirection vers Discord...".

Definition outOfRangeMessage (detectedAge : Z) : string :=
  "Désolé, l'âge détecté (" ++ numberToString detectedAge
    ++ " ans) ne correspond pas aux critères requis (13-17 ans).".

Definition processingErrorMessage : string :=
  "Erreur lors de l'analyse de la photo. Veuillez réessayer.".

Definition discordUrl : string := "https://discord.gg/kphrm4ubxQ".

(** [analyzeImageForAge(image)] of [@/lib/aiAgeChecker]: resolves with an
    age or rejects. *)
Definition analyzeImageForAge (answer : option Z) (image : string) : M Z :=
  match answer with
  | Some detectedAge => ret detectedAge
  | None => throw HostFailure
  end.

(** The outcome of [fetch]: the promise resolves with a response, whatever
    its HTTP status, or rejects (network failure). *)
Inductive FetchAnswer :=
| Responds (status : Z)
| Rejects.

Definition fetchPhotos (answer : FetchAnswer) (image : string) (age : Z)
    : M unit :=
  emit [FetchPost "/api/photos" image age] ;;
  match answer with
  | Responds _ => ret tt
  | Rejects => throw HostFailure
  end.

(** The [try]/[catch]/[finally] statement of [processImage], entered with
    the preview image captured by the handler. *)
Definition classifyAndRoute (classifier : option Z) (persistence : FetchAnswer)
    (image : string) : M unit :=
  tryCatchFinally
    (detectedAge <- analyzeImageForAge classifier image ;;
     if inRange detectedAge then
       fetchPhotos persistence image detectedAge ;;
       emit [Alert (confirmationMessage detectedAge)] ;;
       emit [RouterPush discordUrl]
     else
       setError (Some (outOfRangeMessage detectedAge)))
    (fun err =>
       emit [ConsoleError "Processing error:"] ;;
       setError (Some processingErrorMessage))
    (setIsProcessing false ;;
     setSelectedFile None).

(** The statements of [processImage] before the [try]: the state in which
    the classifier call is in flight. *)
Definition enterProcessing : M unit :=
  setIsProcessing true ;;
  setError None.

Definition processImage (classifier : option Z) (persistence : FetchAnswer)
    : M unit :=
  preview <- gets previewImage ;;
  match preview with
  | Some image =>
      if truthy preview then
        enterProcessing ;;
        classifyAndRoute classifier persistence image
      else ret tt
  | None => ret tt
  end.

Definition resetCapture : M unit :=
  setPreviewImage None ;;
  setSelectedFile None ;;
  setError None.

(** ** The rendered controls *)

Inductive Control :=
| ValidateButton      (* "Valider la photo", onClick={processImage} *)
| RetakeButton        (* "Reprendre la photo", onClick={resetCapture} *)
| CameraButton        (* "Utiliser la caméra", onClick={startCamera} *)
| FileInput           (* <input type="file" onChange={handleFileUpload}> *)
| CaptureButton       (* "Capturer la photo", onClick={capturePhoto} *)
| StopButton.         (* "Arrêter la caméra", onClick={stopCamera} *)

(** Which branch of [previewImage ? ... : !isCameraActive ? ... : ...]
    holds the control. *)
Definition rendered (s : State) (c : Control) : bool :=
  match c with
  | ValidateButton | RetakeButton => truthy (previewImage s)
  | CameraButton | FileInput =>
      negb (truthy (previewImage s)) && negb (isCameraActive s)
  | CaptureButton | StopButton =>
      negb (truthy (previewImage s)) && isCameraActive s
  end.

(** The [disabled] attribute of the control. *)
Definition disabled (s : State) (c : Control) : bool :=
  match c with
  | StopButton => false
  | _ => isProcessing s
  end.

Definition enabled (s : State) (c : Control) : bool :=
  rendered s c && negb (disabled s c).

(** ** Operations and events *)

(** The operations of the controller, each with the answers of the host. *)
Inductive Op :=
| Acquire (camera : option MediaStream)
| Release
| CaptureFromStream (frame : string)
| CaptureFromFile (files : option File) (reader : ReadAnswer)
| Discard
| ProcessImage (classifier : option Z) (persistence : FetchAnswer).

Definition handler (o : Op) : M unit :=
  match o with
  | Acquire camera => startCamera camera
  | Release => stopCamera
  | CaptureFromStream frame => capturePhoto frame
  | CaptureFromFile files reader => handleFileUpload files reader
  | Discard => resetCapture
  | ProcessImage classifier persistence => processImage classifier persistence
  end.

(** The control whose event runs the operation. *)
Definition control (o : Op) : Control :=
  match o with
  | Acquire _ => CameraButton
  | Release => StopButton
  | CaptureFromStream _ => CaptureButton
  | CaptureFromFile _ _ => FileInput
  | Discard => RetakeButton
  | ProcessImage _ _ => ValidateButton
  end.

(** Operations run to completion, one after the other. *)
Definition runOps (ops : list Op) (s : State) : State :=
  fold_left (fun acc o => exec (handler o) acc) ops s.

(** What the page lets happen: the user acts on a control, which runs its
    handler only when the control is rendered and not disabled; React
    attaches or detaches the elements behind the two refs. *)
Inductive UiEvent :=
| User (o : Op)
| Commit (video : option VideoElement) (canvas : option CanvasElement).

Definition dispatch (s : State) (ev : UiEvent) : State :=
  match ev with
  | User o => if enabled s (control o) then exec (handler o) s else s
  | Commit video canvas => exec (setVideo video ;; setCanvas canvas) s
  end.

Definition runUi (evs : list UiEvent) (s : State) : State :=
  fold_left dispatch evs s.

(** ** Observations *)

(** No camera, no preview, nothing in flight. *)
Definition idle (s : State) : bool :=
  negb (isSome (stream s)) && negb (isSome (previewImage s))
    && negb (isCameraActive s) && negb (isProcessing s).

(** At most one of the stream handle and the preview image is held. *)
Definition exclusive (s : State) : bool :=
  negb (isSome (stream s) && isSome (previewImage s)).

(** A stream handle is held only while the camera is flagged active, and
    then no preview image is held. *)
Definition cameraInvariant (s : State) : Prop :=
  isSome (stream s) = true ->
  isCameraActive s = true /\ previewImage s = None.

(** The React state of the controller, without refs and trace. *)
Definition controller (s : State) :=
  (error s, isProcessing s, isCameraActive s, selectedFile s,
   previewImage s, stream s).


(** The integer that a decimal numeral denotes: digits, with an optional
    minus sign in front; [None] for any other text. *)
Definition readDecimal (text : string) : option Z :=
  option_map Z.of_int (NilZero.int_of_string text).

(** The number of navigations in a trace. *)
Definition navigations (t : list Event) : nat :=
  List.length (filter (fun e => match e with RouterPush _ => true | _ => false end) t).

Definition notices (t : list Event) : nat :=
  List.length (filter (fun e => match e with Alert _ => true | _ => false end) t).

Definition persistenceCalls (t : list Event) : nat :=
  List.length (filter (fun e => match e with FetchPost _ _ _ => true | _ => false end) t).

(** The tracks stopped in a trace, in order. *)
Definition trackStops (t : list Event) : list Track :=
  flat_map (fun e => match e with TrackStop k => [k] | _ => [] end) t.

(** ** Component lifecycle *)

(** The cleanup of [useEffect(() => { return () => { stopCamera() } }, [])].
    With the empty dependency list the effect is set up once, after the
    first render: the [stopCamera] it calls is the closure of that render,
    in which [stream] is the initial [null]. *)
Definition unmountCleanup : M unit :=
  stopCameraWith (stream initial).

(** What a commit of React does to the refs: the [<video>] and [<canvas>]
    elements belong to the camera view (the last branch of the JSX, the one
    of the capture button); they are attached while that view is rendered,
    [video] and [canvas] being the elements created when it appears, and
    detached otherwise. *)
Definition reconcile (video : VideoElement) (canvas : CanvasElement)
    (s : State) : State :=
  if rendered s CaptureButton then
    exec (setVideo (Some (match videoRef s with
                          | Some attached => attached
                          | None => video
                          end)) ;;
          setCanvas (Some (match canvasRef s with
                           | Some attached => attached
                           | None => canvas
                           end))) s
  else
    exec (setVideo None ;; setCanvas None) s.

(** The page: each user event runs through [dispatch] and is followed by
    the commit of the render it caused. *)
Definition runPage (video : VideoElement) (canvas : CanvasElement)
    (ops : list Op) (s : State) : State :=
  fold_left (fun acc o => reconcile video canvas (dispatch acc (User o)))
    ops s.

(** The trace keeps notices and navigations paired, after a persistence
    request. *)
Definition balanced (t : list Event) : Prop :=
  (navigations t = notices t /\ navigations t <= persistenceCalls t)%nat.

(** ** Sample values *)

Definition frontCamera : MediaStream := mkMediaStream [0%nat].
Definition sampleVideo : VideoElement := mkVideo None 640 480.
Definition sampleCanvas : CanvasElement := mkCanvas true 300 150.
Definition sampleFrame : string := "data:image/jpeg;base64,/9j/4AAQSkZJRg".
Definition sampleJpeg : File := mkFile "face.jpg" "image/jpeg" 204800.
Definition sampleUpload : string := "data:image/jpeg;base64,/9j/4QBiRXhpZg".

(** The first render, with the video and canvas elements attached. *)
Definition mounted : State :=
  mkState None false false None None None
    (Some sampleVideo) (Some sampleCanvas) [].

(** The user has acquired the camera and captured a frame. *)
Definition previewReady : State :=
  runOps [Acquire (Some frontCamera); CaptureFromStream sampleFrame] mounted.

(** The user has confirmed the preview: the classifier call is in flight. *)
Definition inFlight : State := exec enterProcessing previewReady.

(** * Proofs *)

(** ** Running handlers *)

Ltac run :=
  cbv [exec completion handler processImage classifyAndRoute enterProcessing
       fetchPhotos analyzeImageForAge handleFileUpload readAsDataURL
       capturePhoto startCamera stopCamera stopCameraWith resetCapture
       getUserMedia
       tryCatchFinally tryCatch bind ret throw gets modify emit
       setError setIsProcessing setIsCameraActive setSelectedFile
       setPreviewImage setStream setVideo setCanvas
       error isProcessing isCameraActive selectedFile previewImage stream
       videoRef canvasRef trace fst snd].

Lemma previewReady_eq :
  previewReady =
  mkState None false false None (Some sampleFrame) None
    (Some (mkVideo None 640 480)) (Some (mkCanvas true 640 480))
    [TrackStop 0%nat].
Proof. reflexivity. Qed.

Lemma inRange_spec (a : Z) : inRange a = true <-> 13 <= a <= 17.
Proof. unfold inRange. rewrite andb_true_iff, !Z.leb_le. tauto. Qed.


(** What [processImage] does once the classifier has answered with an age
    in the range and the persistence request has been answered. *)
Lemma processImage_accepted (s : State) (image : string) (age status : Z) :
  previewImage s = Some image -> truthy (Some image) = true ->
  inRange age = true ->
  processImage (Some age) (Responds status) s =
  (Normal tt,
   mkState None false (isCameraActive s) None (Some image) (stream s)
     (videoRef s) (canvasRef s)
     (trace s ++ [FetchPost "/api/photos" image age]
        ++ [Alert (confirmationMessage age)] ++ [RouterPush discordUrl])).
Proof.
  intros Hp Ht Hr. destruct s; simpl in Hp; subst.
  run. rewrite Ht. cbv beta iota. rewrite Hr. cbv beta iota.
  rewrite <- !app_assoc. reflexivity.
Qed.

(** The same, when the persistence request is rejected: the exception of
    the awaited [fetch] reaches the [catch] clause. *)
Lemma processImage_persistence_rejected (s : State) (image : string) (age : Z) :
  previewImage s = Some image -> truthy (Some image) = true ->
  inRange age = true ->
  processImage (Some age) Rejects s =
  (Normal tt,
   mkState (Some processingErrorMessage) false (isCameraActive s) None
     (Some image) (stream s) (videoRef s) (canvasRef s)
     (trace s ++ [FetchPost "/api/photos" image age]
        ++ [ConsoleError "Processing error:"])).
Proof.
  intros Hp Ht Hr. destruct s; simpl in Hp; subst.
  run. rewrite Ht. cbv beta iota. rewrite Hr. cbv beta iota.
  rewrite <- !app_assoc. reflexivity.
Qed.

(** What [processImage] does when the age is outside the range. *)
Lemma processImage_out_of_range (s : State) (image : string) (age : Z)
    (persistence : FetchAnswer) :
  previewImage s = Some image -> truthy (Some image) = true ->
  inRange age = false ->
  processImage (Some age) persistence s =
  (Normal tt,
   mkState (Some (outOfRangeMessage age)) false (isCameraActive s) None
     (Some image) (stream s) (videoRef s) (canvasRef s) (trace s)).
Proof.
  intros Hp Ht Hr. destruct s; simpl in Hp; subst.
  run. rewrite Ht. cbv beta iota. rewrite Hr. reflexivity.
Qed.

(** What [processImage] does when the classifier call fails. *)
Lemma processImage_classifier_fails (s : State) (image : string)
    (persistence : FetchAnswer) :
  previewImage s = Some image -> truthy (Some image) = true ->
  processImage None persistence s =
  (Normal tt,
   mkState (Some processingErrorMessage) false (isCameraActive s) None
     (Some image) (stream s) (videoRef s) (canvasRef s)
     (trace s ++ [ConsoleError "Processing error:"])).
Proof.
  intros Hp Ht. destruct s; simpl in Hp; subst.
  run. rewrite Ht. reflexivity.
Qed.

(** Without a preview image [processImage] returns at once. *)
Lemma processImage_without_preview (s : State) (classifier : option Z)
    (persistence : FetchAnswer) :
  truthy (previewImage s) = false ->
  processImage classifier persistence s = (Normal tt, s).
Proof.
  intros Ht. destruct s as [e p c f pv st v cv t]; simpl in Ht.
  run. destruct pv; [rewrite Ht|]; reflexivity.
Qed.

Lemma sampleFrame_truthy : truthy (Some sampleFrame) = true.
Proof. reflexivity. Qed.

Lemma count_app (p : Event -> bool) (t u : list Event) :
  List.length (filter p (t ++ u))
  = (List.length (filter p t) + List.length (filter p u))%nat.
Proof. now rewrite filter_app, length_app. Qed.

(** ** C1: the preview image after an accepted age *)

(** C1, as stated, fails: in the scenario of the spec (camera acquired,
    frame captured, submission confirmed, classifier answers 15) the preview
    image is still held when [processImage] has completed. *)
Lemma C1_preview_not_cleared :
  inRange 15 = true /\
  previewImage (exec (processImage (Some 15) (Responds 200)) previewReady)
  = Some sampleFrame /\
  previewImage (exec (processImage (Some 15) (Responds 200)) previewReady)
  <> None.
Proof. repeat split. discriminate. Qed.

(** C1, amended: when the classifier answers with an age in the range
    13..17, [processImage] ends with the processing flag reset and the
    selected file cleared, and with the preview image it started with: the
    handler does not clear [previewImage]. *)
Theorem processImage_success_end_state (s : State) (image : string) (age : Z)
    (persistence : FetchAnswer) :
  previewImage s = Some image -> truthy (Some image) = true ->
  13 <= age <= 17 ->
  let s' := exec (processImage (Some age) persistence) s in
  previewImage s' = Some image /\ selectedFile s' = None /\
  isProcessing s' = false.
Proof.
  intros Hp Ht Hr. apply inRange_spec in Hr. unfold exec.
  destruct persistence as [status|].
  - rewrite (processImage_accepted s image age status Hp Ht Hr). now simpl.
  - rewrite (processImage_persistence_rejected s image age Hp Ht Hr). now simpl.
Qed.

Lemma processImage_success_end_state_witness :
  previewImage (exec (processImage (Some 15) (Responds 200)) previewReady)
  = Some sampleFrame /\
  selectedFile (exec (processImage (Some 15) (Responds 200)) previewReady)
  = None /\
  isProcessing (exec (processImage (Some 15) (Responds 200)) previewReady)
  = false.
Proof.
  apply (processImage_success_end_state previewReady sampleFrame 15
           (Responds 200)); [reflexivity | reflexivity | lia].
Defined.

(** ** C2: the persistence request and the success transition *)

(** C2, as stated, fails: with an accepted age and a rejected persistence
    request, an error is attached, no notice is shown and no navigation
    takes place. *)
Lemma C2_persistence_failure_blocks_navigation :
  let s' := exec (processImage (Some 15) Rejects) previewReady in
  inRange 15 = true /\
  error s' = Some processingErrorMessage /\
  notices (trace s') = 0%nat /\ navigations (trace s') = 0%nat.
Proof. repeat split. Qed.

(** C2, amended: with an accepted age, when the persistence request is
    answered (whatever the status of the response) no error is attached, the
    notice is shown once and the navigation is invoked once, and the end
    state does not depend on the response; when the persistence request is
    rejected, the generic error is attached and neither the notice nor the
    navigation happens. *)
Theorem processImage_persistence_outcome (s : State) (image : string)
    (age : Z) :
  previewImage s = Some image -> truthy (Some image) = true ->
  13 <= age <= 17 ->
  (forall status,
     let s' := exec (processImage (Some age) (Responds status)) s in
     error s' = None /\
     trace s' = (trace s ++ [FetchPost "/api/photos" image age;
                             Alert (confirmationMessage age);
                             RouterPush discordUrl])%list /\
     notices (trace s') = S (notices (trace s)) /\
     navigations (trace s') = S (navigations (trace s)) /\
     s' = exec (processImage (Some age) (Responds 200)) s) /\
  (let s' := exec (processImage (Some age) Rejects) s in
   error s' = Some processingErrorMessage /\
   trace s' = (trace s ++ [FetchPost "/api/photos" image age;
                           ConsoleError "Processing error:"])%list /\
   notices (trace s') = notices (trace s) /\
   navigations (trace s') = navigations (trace s)).
Proof.
  intros Hp Ht Hr. apply inRange_spec in Hr. unfold exec. split.
  - intros status.
    rewrite !(processImage_accepted s image age _ Hp Ht Hr). simpl.
    unfold notices, navigations. rewrite !count_app. simpl.
    repeat split; lia.
  - rewrite (processImage_persistence_rejected s image age Hp Ht Hr). simpl.
    unfold notices, navigations. rewrite !count_app. simpl.
    repeat split; lia.
Qed.

Lemma processImage_persistence_outcome_witness :
  error (exec (processImage (Some 15) (Responds 500)) previewReady) = None /\
  navigations (trace (exec (processImage (Some 15) (Responds 500)) previewReady))
  = 1%nat /\
  error (exec (processImage (Some 15) Rejects) previewReady)
  = Some processingErrorMessage.
Proof.
  pose proof (processImage_persistence_outcome previewReady sampleFrame 15
                eq_refl eq_refl ltac:(lia)) as [Hok Hko].
  destruct (Hok 500) as (He & _ & _ & Hn & _).
  destruct Hko as (He' & _).
  split; [exact He|]. split; [exact Hn|exact He'].
Defined.

(** ** C3: the stream of a successful camera request *)

(** With the video element attached, [startCamera] binds the stream. *)
Lemma startCamera_binds (s : State) (mediaStream : MediaStream)
    (video : VideoElement) :
  videoRef s = Some video ->
  startCamera (Some mediaStream) s =
  (Normal tt,
   mkState None (isProcessing s) true (selectedFile s) None
     (Some mediaStream)
     (Some (mkVideo (Some mediaStream) (videoWidth video) (videoHeight video)))
     (canvasRef s) (trace s)).
Proof. intros Hv. destruct s; simpl in Hv; subst. reflexivity. Qed.

(** Without it, [startCamera] returns with the state as it was: the stream
    is neither stored nor stopped. *)
Lemma startCamera_without_video (s : State) (mediaStream : MediaStream) :
  videoRef s = None ->
  startCamera (Some mediaStream) s = (Normal tt, s).
Proof. intros Hv. destruct s; simpl in Hv; subst. reflexivity. Qed.

(** When the camera request fails, only the error is attached. *)
Lemma startCamera_rejected (s : State) :
  startCamera None s =
  (Normal tt,
   mkState (Some cameraErrorMessage) (isProcessing s) (isCameraActive s)
     (selectedFile s) (previewImage s) (stream s) (videoRef s) (canvasRef s)
     (trace s ++ [ConsoleError "Camera error:"])).
Proof. reflexivity. Qed.

(** C3, on the code: on the first render the video element is not attached
    ([videoRef.current] is [null]); a camera request that succeeds there
    yields a stream that [startCamera] drops: it is not the active handle
    and none of its tracks is stopped.  The claim asks for one of the two. *)
Theorem startCamera_abandons_stream :
  let s' := exec (startCamera (Some frontCamera)) initial in
  completion (startCamera (Some frontCamera)) initial = Normal tt /\
  stream s' = None /\
  existsb (fun e => match e with TrackStop _ => true | _ => false end)
    (trace s') = false.
Proof. repeat split. Qed.

(** ** C8: [stopCamera] is idempotent *)

(** [stopCamera] leaves no stream handle and the camera inactive. *)
Lemma stopCamera_releases (s : State) :
  stream (exec stopCamera s) = None /\
  isCameraActive (exec stopCamera s) = false.
Proof. destruct s as [e p c f pv [ms|] [video|] cv t]; split; reflexivity. Qed.

(** C8: [stopCamera] completes normally in every state, leaves no stream
    handle and the camera inactive, and a second call in a row changes
    nothing: state, refs and trace are those left by the first call. *)
Theorem stopCamera_idempotent (s : State) :
  completion stopCamera s = Normal tt /\
  stream (exec stopCamera s) = None /\
  isCameraActive (exec stopCamera s) = false /\
  exec stopCamera (exec stopCamera s) = exec stopCamera s.
Proof.
  destruct s as [e p c f pv [ms|] [video|] cv t]; repeat split.
Qed.

(** Called twice from the closure of one render, the second call stops the
    same tracks again and leaves the React state and the refs of the first
    call. *)
Lemma stopCameraWith_twice (s : State) (held : option MediaStream) :
  let once := exec (stopCameraWith held) s in
  let twice := exec (stopCameraWith held) once in
  controller twice = controller once /\
  videoRef twice = videoRef once /\ canvasRef twice = canvasRef once.
Proof.
  destruct s as [e p c f pv st [video|] cv t]; destruct held; repeat split.
Qed.

(** Without a handle, [stopCamera] stops nothing. *)
Lemma stopCamera_without_stream (s : State) :
  stream s = None -> trace (exec stopCamera s) = trace s.
Proof.
  destruct s as [e p c f pv st [video|] cv t]; simpl; intros ->; reflexivity.
Qed.

(** With a handle, every track of it is stopped. *)
Lemma stopCamera_stops_tracks (s : State) (mediaStream : MediaStream) :
  stream s = Some mediaStream ->
  trace (exec stopCamera s)
  = (trace s ++ map TrackStop (getTracks mediaStream))%list.
Proof.
  destruct s as [e p c f pv st [video|] cv t]; simpl; intros ->; reflexivity.
Qed.

(** ** C9: [capturePhoto] without a surface or without a context *)

(** C9, as stated, fails: when the video element is not attached,
    [capturePhoto] returns without attaching an error. *)
Lemma C9_missing_surface_is_silent :
  videoRef initial = None /\
  error (exec (capturePhoto sampleFrame) initial) = None.
Proof. split; reflexivity. Qed.

Lemma capturePhoto_missing_element (s : State) (frame : string) :
  videoRef s = None \/ canvasRef s = None ->
  capturePhoto frame s = (Normal tt, s).
Proof.
  destruct s as [e p c f pv st v cv t]. simpl.
  intros [-> | ->]; [reflexivity|]. destruct v; reflexivity.
Qed.

Lemma capturePhoto_missing_context (s : State) (frame : string)
    (video : VideoElement) (canvas : CanvasElement) :
  videoRef s = Some video -> canvasRef s = Some canvas ->
  context2d canvas = false ->
  capturePhoto frame s =
  (Normal tt,
   mkState (Some captureErrorMessage) (isProcessing s) (isCameraActive s)
     (selectedFile s) (previewImage s) (stream s) (videoRef s)
     (canvasRef s) (trace s ++ [ConsoleError "Capture error:"])).
Proof.
  destruct s as [e p c f pv st v cv t]. simpl. intros -> -> Hc.
  run. rewrite Hc. reflexivity.
Qed.

(** C9, amended: when the video or the canvas element is not attached,
    [capturePhoto] returns with the state as it was, and no error is
    attached; when both are attached and the canvas yields no 2D context,
    the capture error is attached (and logged) and nothing else changes. *)
Theorem capturePhoto_unavailable (s : State) (frame : string) :
  (videoRef s = None \/ canvasRef s = None ->
   capturePhoto frame s = (Normal tt, s)) /\
  (forall video canvas,
     videoRef s = Some video -> canvasRef s = Some canvas ->
     context2d canvas = false ->
     capturePhoto frame s =
     (Normal tt,
      mkState (Some captureErrorMessage) (isProcessing s) (isCameraActive s)
        (selectedFile s) (previewImage s) (stream s) (videoRef s)
        (canvasRef s) (trace s ++ [ConsoleError "Capture error:"]))).
Proof.
  split.
  - apply capturePhoto_missing_element.
  - apply capturePhoto_missing_context.
Qed.

Lemma capturePhoto_unavailable_witness :
  capturePhoto sampleFrame initial = (Normal tt, initial) /\
  error (exec (capturePhoto sampleFrame)
           (mkState None false true None None (Some frontCamera)
              (Some sampleVideo) (Some (mkCanvas false 300 150)) []))
  = Some captureErrorMessage.
Proof.
  split.
  - apply (proj1 (capturePhoto_unavailable initial sampleFrame)).
    left. reflexivity.
  - unfold exec.
    rewrite (proj2 (capturePhoto_unavailable
                      (mkState None false true None None (Some frontCamera)
                         (Some sampleVideo) (Some (mkCanvas false 300 150)) [])
                      sampleFrame)
               sampleVideo (mkCanvas false 300 150) eq_refl eq_refl eq_refl).
    reflexivity.
Defined.

(** With both elements and a context, [capturePhoto] stores the frame and
    releases the camera. *)
Lemma capturePhoto_success (s : State) (frame : string)
    (video : VideoElement) (canvas : CanvasElement) :
  videoRef s = Some video -> canvasRef s = Some canvas ->
  context2d canvas = true ->
  exec (capturePhoto frame) s =
  exec stopCamera
    (mkState (error s) (isProcessing s) (isCameraActive s) (selectedFile s)
       (Some frame) (stream s) (videoRef s)
       (Some (mkCanvas true (videoWidth video) (videoHeight video)))
       (trace s)).
Proof.
  destruct s as [e p c f pv [ms|] v cv t]; simpl; intros -> -> Hc;
    run; rewrite Hc; reflexivity.
Qed.

(** ** C5: the two checks of the validator *)

(** A rejected file only attaches the message of its rejection: the reader
    is not consulted. *)
Lemma handleFileUpload_rejected (s : State) (file : File) (reason : Rejection)
    (answer : ReadAnswer) :
  validate file = Some reason ->
  handleFileUpload (Some file) answer s =
  (Normal tt,
   mkState (Some (rejectionMessage reason)) (isProcessing s)
     (isCameraActive s) (Some file) (previewImage s) (stream s)
     (videoRef s) (canvasRef s) (trace s)).
Proof.
  intros Hv. destruct s. run. rewrite Hv. reflexivity.
Qed.

(** C5: a file whose declared type does not start with [image/] is rejected
    for its type, whatever its size; a file with such a type is rejected
    for its size when it is larger than 5 * 1024 * 1024 bytes; at exactly
    that size it passes, one byte above it is rejected. *)
Theorem validate_ordered_checks (fileName declared : string) (bytes : Z) :
  maxFileSize = 5242880 /\
  (String.prefix "image/" declared = false ->
   validate (mkFile fileName declared bytes) = Some NotAnImage) /\
  (String.prefix "image/" declared = true -> maxFileSize < bytes ->
   validate (mkFile fileName declared bytes) = Some TooLarge) /\
  (String.prefix "image/" declared = true -> bytes <= maxFileSize ->
   validate (mkFile fileName declared bytes) = None) /\
  (String.prefix "image/" declared = true ->
   validate (mkFile fileName declared (5 * 1024 * 1024)) = None /\
   validate (mkFile fileName declared (5 * 1024 * 1024 + 1)) = Some TooLarge).
Proof.
  unfold validate; cbn [type size].
  split; [reflexivity|]. split; [|split; [|split]].
  - intros ->. reflexivity.
  - intros -> Hb. cbn [negb].
    destruct (Z.gtb_spec bytes maxFileSize); [reflexivity|lia].
  - intros -> Hb. cbn [negb].
    destruct (Z.gtb_spec bytes maxFileSize); [lia|reflexivity].
  - intros ->. split; reflexivity.
Qed.

Lemma validate_ordered_checks_witness :
  validate (mkFile "notes.pdf" "application/pdf" (6 * 1024 * 1024))
  = Some NotAnImage /\
  validate (mkFile "big.jpg" "image/jpeg" (6 * 1024 * 1024)) = Some TooLarge /\
  validate sampleJpeg = None /\
  validate (mkFile "edge.png" "image/png" (5 * 1024 * 1024)) = None /\
  validate (mkFile "edge.png" "image/png" (5 * 1024 * 1024 + 1))
  = Some TooLarge.
Proof.
  destruct (validate_ordered_checks "notes.pdf" "application/pdf"
              (6 * 1024 * 1024)) as (_ & Htype & _).
  destruct (validate_ordered_checks "big.jpg" "image/jpeg"
              (6 * 1024 * 1024)) as (_ & _ & Hsize & _).
  destruct (validate_ordered_checks "face.jpg" "image/jpeg" 204800)
    as (_ & _ & _ & Hpass & _).
  destruct (validate_ordered_checks "edge.png" "image/png" 0)
    as (_ & _ & _ & _ & Hedge).
  split; [exact (Htype eq_refl)|].
  split; [apply (Hsize eq_refl); unfold maxFileSize; lia|].
  split; [apply (Hpass eq_refl); unfold maxFileSize; lia|].
  exact (Hedge eq_refl).
Defined.

(** ** C6: an age outside the range *)

Lemma numberToString_25 : numberToString 25 = "25".
Proof. reflexivity. Qed.

Lemma readDecimal_examples :
  readDecimal "25" = Some 25 /\ readDecimal "-4" = Some (-4) /\
  readDecimal "0" = Some 0 /\ readDecimal "1e+21" = None /\
  readDecimal "" = None.
Proof. repeat split. Qed.




(** The message for the age 25, in full. *)
Lemma outOfRangeMessage_25 :
  error (exec (processImage (Some 25) (Responds 200)) previewReady)
  = Some "Désolé, l'âge détecté (25 ans) ne correspond pas aux critères requis (13-17 ans).".
Proof. reflexivity. Qed.

(** ** C10: the selected file *)

(** C10, as stated, fails: after an upload that produces a preview image,
    the selected file is still held. *)
Lemma C10_selected_file_kept :
  let s' := exec (handleFileUpload (Some sampleJpeg)
                    (Loaded (Some sampleUpload))) initial in
  previewImage s' = Some sampleUpload /\
  selectedFile s' = Some sampleJpeg /\ selectedFile s' <> None.
Proof. repeat split. discriminate. Qed.

(** C10, amended: [handleFileUpload] stores the selected file and still
    holds it when it completes, whether validation fails, reading fails or
    a preview image is produced; the reference is dropped by a later
    [processImage] that reaches the classifier, whatever its outcome, and by
    [resetCapture]. *)
Theorem selectedFile_lifetime (s : State) (file : File) :
  (forall answer,
     selectedFile (exec (handleFileUpload (Some file) answer) s) = Some file) /\
  (forall classifier persistence,
     truthy (previewImage s) = true ->
     selectedFile (exec (processImage classifier persistence) s) = None) /\
  selectedFile (exec resetCapture s) = None.
Proof.
  split; [|split].
  - intros answer. destruct s as [e p c f pv st v cv t]. run.
    destruct (validate file); [reflexivity|].
    destruct answer as [[r|]| |]; cbn [truthy];
      try destruct (negb (r =? "")%string); reflexivity.
  - intros classifier persistence Ht.
    destruct s as [e p c f [image|] st v cv t]; [|discriminate Ht].
    cbn [previewImage] in Ht. unfold exec.
    set (s := mkState e p c f (Some image) st v cv t).
    destruct classifier as [age|].
    + destruct (inRange age) eqn:Hr.
      * destruct persistence as [status|].
        -- now rewrite (processImage_accepted s image age status eq_refl Ht Hr).
        -- now rewrite (processImage_persistence_rejected s image age
                          eq_refl Ht Hr).
      * now rewrite (processImage_out_of_range s image age persistence
                       eq_refl Ht Hr).
    + now rewrite (processImage_classifier_fails s image persistence
                     eq_refl Ht).
  - reflexivity.
Qed.

Lemma selectedFile_lifetime_witness :
  selectedFile
    (exec (processImage (Some 15) (Responds 200))
       (exec (handleFileUpload (Some sampleJpeg) (Loaded (Some sampleUpload)))
          initial))
  = None.
Proof.
  apply (proj1 (proj2 (selectedFile_lifetime
           (exec (handleFileUpload (Some sampleJpeg)
                    (Loaded (Some sampleUpload))) initial)
           sampleJpeg))).
  reflexivity.
Defined.

(** ** C7: capture and upload while the classifier call is in flight *)

(** C7, as stated, fails: the handlers do not look at [isProcessing].  In
    the state in which the classifier call is in flight, [handleFileUpload]
    with a valid file replaces the selected file and the preview image. *)
Lemma C7_upload_changes_processing_state :
  let s' := exec (handler (CaptureFromFile (Some sampleJpeg)
                             (Loaded (Some sampleUpload)))) inFlight in
  isProcessing inFlight = true /\
  selectedFile inFlight = None /\ selectedFile s' = Some sampleJpeg /\
  previewImage inFlight = Some sampleFrame /\
  previewImage s' = Some sampleUpload /\
  controller s' <> controller inFlight.
Proof. repeat split. discriminate. Qed.

(** C7, amended: while [isProcessing] is set, the capture button and the
    file input are disabled, so a capture or upload event on the page does
    not run its handler and leaves the whole state as it is. *)
Theorem dispatch_ignores_capture_while_processing (s : State)
    (frame : string) (files : option File) (reader : ReadAnswer) :
  isProcessing s = true ->
  enabled s CaptureButton = false /\ enabled s FileInput = false /\
  dispatch s (User (CaptureFromStream frame)) = s /\
  dispatch s (User (CaptureFromFile files reader)) = s.
Proof.
  intros Hp.
  assert (Hc : enabled s CaptureButton = false)
    by (unfold enabled, disabled; rewrite Hp; apply andb_false_r).
  assert (Hf : enabled s FileInput = false)
    by (unfold enabled, disabled; rewrite Hp; apply andb_false_r).
  cbn [dispatch control]. rewrite Hc, Hf. repeat split.
Qed.

Lemma dispatch_ignores_capture_while_processing_witness :
  dispatch inFlight (User (CaptureFromFile (Some sampleJpeg)
                             (Loaded (Some sampleUpload)))) = inFlight.
Proof.
  apply (dispatch_ignores_capture_while_processing inFlight sampleFrame
           (Some sampleJpeg) (Loaded (Some sampleUpload))).
  reflexivity.
Defined.

(** ** Camera and preview under page events *)

(** [handleFileUpload] does not release the camera: run in a state with
    the video element attached and the camera acquired, it leaves a stream
    handle and a preview image held together.  The component does not get
    there: the video element is attached only in the camera view, which
    needs the camera acquired, which needs the video element. *)
Lemma upload_does_not_release_camera :
  let s' := runOps [Acquire (Some frontCamera);
                    CaptureFromFile (Some sampleJpeg)
                      (Loaded (Some sampleUpload))] mounted in
  idle mounted = true /\
  stream s' = Some frontCamera /\ previewImage s' = Some sampleUpload /\
  exclusive s' = false.
Proof. repeat split. Qed.

Lemma cameraInvariant_exclusive (s : State) :
  cameraInvariant s -> exclusive s = true.
Proof.
  unfold cameraInvariant, exclusive. intros H.
  destruct (isSome (stream s)); [|reflexivity].
  destruct (H eq_refl) as [_ ->]. reflexivity.
Qed.

Lemma idle_cameraInvariant (s : State) :
  idle s = true -> cameraInvariant s.
Proof.
  unfold idle, cameraInvariant. intros H Hs. rewrite Hs in H. discriminate H.
Qed.

Lemma processImage_keeps_camera (s : State) (classifier : option Z)
    (persistence : FetchAnswer) :
  let s' := exec (processImage classifier persistence) s in
  stream s' = stream s /\ isCameraActive s' = isCameraActive s /\
  previewImage s' = previewImage s.
Proof.
  destruct (truthy (previewImage s)) eqn:Ht; unfold exec.
  - destruct (previewImage s) as [image|] eqn:Hp; [|discriminate Ht].
    destruct classifier as [age|].
    + destruct (inRange age) eqn:Hr.
      * destruct persistence as [status|].
        -- rewrite (processImage_accepted s image age status Hp Ht Hr).
           repeat split.
        -- rewrite (processImage_persistence_rejected s image age Hp Ht Hr).
           repeat split.
      * rewrite (processImage_out_of_range s image age persistence Hp Ht Hr).
        repeat split.
    + rewrite (processImage_classifier_fails s image persistence Hp Ht).
      repeat split.
  - rewrite (processImage_without_preview s classifier persistence Ht).
    repeat split.
Qed.

Lemma handleFileUpload_keeps_camera (s : State) (files : option File)
    (answer : ReadAnswer) :
  let s' := exec (handleFileUpload files answer) s in
  stream s' = stream s /\ isCameraActive s' = isCameraActive s.
Proof.
  destruct s as [e p c f pv st v cv t]. destruct files as [file|];
    [|split; reflexivity].
  run. destruct (validate file); [split; reflexivity|].
  destruct answer as [[r|]| |]; cbn [truthy];
    try destruct (negb (r =? "")%string); split; reflexivity.
Qed.

(** Every handler keeps the invariant, [handleFileUpload] when the camera
    is not active. *)
Lemma handler_keeps_cameraInvariant (s : State) (o : Op) :
  (control o = FileInput -> isCameraActive s = false) ->
  cameraInvariant s -> cameraInvariant (exec (handler o) s).
Proof.
  intros Hgate Hinv. destruct o as [camera| |frame|files reader| |cl pe];
    cbn [handler].
  - (* startCamera *)
    destruct camera as [mediaStream|].
    + destruct (videoRef s) as [video|] eqn:Hv; unfold exec.
      * rewrite (startCamera_binds s mediaStream video Hv).
        intros _. split; reflexivity.
      * now rewrite (startCamera_without_video s mediaStream Hv).
    + unfold exec. rewrite startCamera_rejected. exact Hinv.
  - (* stopCamera *)
    intros Hs. destruct (stopCamera_releases s) as [Hnone _].
    rewrite Hnone in Hs. discriminate Hs.
  - (* capturePhoto *)
    destruct (videoRef s) as [video|] eqn:Hv.
    + destruct (canvasRef s) as [canvas|] eqn:Hc.
      * destruct (context2d canvas) eqn:Hx.
        -- rewrite (capturePhoto_success s frame video canvas Hv Hc Hx).
           intros Hs.
           match type of Hs with
           | context [exec stopCamera ?s0] =>
               destruct (stopCamera_releases s0) as [Hnone _]
           end.
           rewrite Hnone in Hs. discriminate Hs.
        -- unfold exec.
           rewrite (capturePhoto_missing_context s frame video canvas
                      Hv Hc Hx).
           exact Hinv.
      * unfold exec.
        rewrite (capturePhoto_missing_element s frame (or_intror Hc)).
        exact Hinv.
    + unfold exec.
      rewrite (capturePhoto_missing_element s frame (or_introl Hv)).
      exact Hinv.
  - (* handleFileUpload *)
    destruct (handleFileUpload_keeps_camera s files reader) as [Hs Ha].
    intros Hheld. rewrite Hs in Hheld.
    destruct (Hinv Hheld) as [Hactive _].
    rewrite (Hgate eq_refl) in Hactive. discriminate Hactive.
  - (* resetCapture *)
    intros Hs. destruct (Hinv Hs) as [Hactive _]. split; [exact Hactive|].
    reflexivity.
  - (* processImage *)
    destruct (processImage_keeps_camera s cl pe) as (Hs & Ha & Hp).
    intros Hheld. rewrite Hs in Hheld. rewrite Ha, Hp. exact (Hinv Hheld).
Qed.

Lemma dispatch_keeps_cameraInvariant (s : State) (ev : UiEvent) :
  cameraInvariant s -> cameraInvariant (dispatch s ev).
Proof.
  intros Hinv. destruct ev as [o|video canvas]; cbn [dispatch].
  - destruct (enabled s (control o)) eqn:He; [|exact Hinv].
    apply handler_keeps_cameraInvariant; [|exact Hinv].
    intros Hc. rewrite Hc in He. unfold enabled, rendered in He.
    destruct (isCameraActive s); [|reflexivity].
    rewrite andb_false_r in He. discriminate He.
  - exact Hinv.
Qed.

Lemma runUi_keeps_cameraInvariant (evs : list UiEvent) :
  forall s, cameraInvariant s -> cameraInvariant (runUi evs s).
Proof.
  induction evs as [|ev evs IH]; intros s Hinv; [exact Hinv|].
  apply IH, dispatch_keeps_cameraInvariant, Hinv.
Qed.

(** In every state reached from an idle state by events of the page (each
    handler run from its control, only while that control is rendered and
    enabled; the elements behind the refs attached or detached at any
    time), the stream handle and the preview image are not held together. *)
Lemma runUi_exclusive (s0 : State) (evs : list UiEvent) :
  idle s0 = true -> exclusive (runUi evs s0) = true.
Proof.
  intros Hidle. apply cameraInvariant_exclusive, runUi_keeps_cameraInvariant,
    idle_cameraInvariant, Hidle.
Qed.

Lemma runUi_exclusive_witness :
  exclusive
    (runUi [Commit (Some sampleVideo) (Some sampleCanvas);
            User (Acquire (Some frontCamera));
            User (CaptureFromFile (Some sampleJpeg)
                    (Loaded (Some sampleUpload)));
            User (CaptureFromStream sampleFrame)] initial)
  = true.
Proof. apply (runUi_exclusive initial). reflexivity. Defined.

(** * Further properties of the handlers *)

Ltac split_conditions :=
  repeat match goal with
  | |- context [validate ?f] => destruct (validate f)
  | |- context [truthy ?x] => destruct (truthy x)
  | |- context [inRange ?a] => destruct (inRange a)
  | |- context [context2d ?c] => destruct (context2d c)
  end.

Lemma trackStops_app (t u : list Event) :
  trackStops (t ++ u) = (trackStops t ++ trackStops u)%list.
Proof. unfold trackStops. apply flat_map_app. Qed.

Lemma trackStops_map (l : list Track) : trackStops (map TrackStop l) = l.
Proof.
  induction l as [|k l IH]; [reflexivity|]. simpl. now rewrite IH.
Qed.

(** ** The device manager *)

(** X1: When the camera request is rejected, [startCamera] completes normally
    with the camera error attached and logged; the stream handle, the camera
    flag, the preview, the selected file and the refs are as before, and no
    track is stopped. *)
Theorem startCamera_failure_keeps_state (s : State) :
  let s' := exec (startCamera None) s in
  completion (startCamera None) s = Normal tt /\
  error s' = Some cameraErrorMessage /\
  stream s' = stream s /\ isCameraActive s' = isCameraActive s /\
  previewImage s' = previewImage s /\ selectedFile s' = selectedFile s /\
  isProcessing s' = isProcessing s /\
  videoRef s' = videoRef s /\ canvasRef s' = canvasRef s /\
  trace s' = (trace s ++ [ConsoleError "Camera error:"])%list /\
  (forall c, rendered s' c = rendered s c).
Proof.
  destruct s as [e p c f pv st v cv t]. repeat split.
Qed.

(** X2: With the video element attached, a camera request that succeeds makes
    the stream the active handle and the source of the video element, flags
    the camera active, and clears the error and the preview image: the
    camera view is rendered.  Nothing is stopped or logged. *)
Theorem startCamera_success_binds_stream (s : State)
    (mediaStream : MediaStream) (video : VideoElement) :
  videoRef s = Some video ->
  let s' := exec (startCamera (Some mediaStream)) s in
  stream s' = Some mediaStream /\
  isCameraActive s' = true /\
  error s' = None /\ previewImage s' = None /\
  option_map srcObject (videoRef s') = Some (Some mediaStream) /\
  rendered s' CaptureButton = true /\ rendered s' StopButton = true /\
  selectedFile s' = selectedFile s /\ isProcessing s' = isProcessing s /\
  trace s' = trace s.
Proof.
  intros Hv. unfold exec.
  rewrite (startCamera_binds s mediaStream video Hv). repeat split.
Qed.

Lemma startCamera_success_binds_stream_witness :
  stream (exec (startCamera (Some frontCamera)) mounted) = Some frontCamera /\
  isCameraActive (exec (startCamera (Some frontCamera)) mounted) = true.
Proof.
  destruct (startCamera_success_binds_stream mounted frontCamera sampleVideo
              eq_refl) as (Hs & Ha & _).
  split; [exact Hs|exact Ha].
Defined.

(** X3: With a stream held, [stopCamera] stops each of its tracks, once and in
    order, detaches it from the video element, clears the handle and the
    camera flag, and leaves error, preview, selected file and processing
    flag alone. *)
Theorem stopCamera_stops_every_track (s : State) (mediaStream : MediaStream) :
  stream s = Some mediaStream ->
  let s' := exec stopCamera s in
  trackStops (trace s')
  = (trackStops (trace s) ++ getTracks mediaStream)%list /\
  stream s' = None /\ isCameraActive s' = false /\
  option_map srcObject (videoRef s') = option_map (fun _ => None) (videoRef s) /\
  error s' = error s /\ previewImage s' = previewImage s /\
  selectedFile s' = selectedFile s /\ isProcessing s' = isProcessing s.
Proof.
  intros Hs. split.
  - rewrite (stopCamera_stops_tracks s mediaStream Hs).
    now rewrite trackStops_app, trackStops_map.
  - destruct s as [e p c f pv st [video|] cv t]; simpl in Hs; subst;
      repeat split.
Qed.

Lemma stopCamera_stops_every_track_witness :
  trackStops (trace (exec stopCamera
                       (exec (startCamera (Some frontCamera)) mounted)))
  = [0%nat].
Proof.
  destruct (stopCamera_stops_every_track
              (exec (startCamera (Some frontCamera)) mounted) frontCamera
              eq_refl) as (Ht & _).
  exact Ht.
Defined.

(** X4: Acquire then release, with the video element attached: no handle is
    left, the camera is inactive, the video element has no source, the
    tracks stopped are exactly those of the acquired stream, and neither a
    preview image nor an error is held. *)
Theorem acquire_release_roundtrip (s : State) (mediaStream : MediaStream)
    (video : VideoElement) :
  videoRef s = Some video ->
  let s' := runOps [Acquire (Some mediaStream); Release] s in
  stream s' = None /\ isCameraActive s' = false /\
  videoRef s' = Some (mkVideo None (videoWidth video) (videoHeight video)) /\
  trackStops (trace s')
  = (trackStops (trace s) ++ getTracks mediaStream)%list /\
  previewImage s' = None /\ error s' = None.
Proof.
  intros Hv. cbn [runOps fold_left handler]. unfold exec at 2.
  rewrite (startCamera_binds s mediaStream video Hv). cbn [snd].
  destruct s as [e p c f pv st v cv t]. simpl in Hv. subst.
  cbn. rewrite trackStops_app, trackStops_map. repeat split.
Qed.

Lemma acquire_release_roundtrip_witness :
  stream (runOps [Acquire (Some frontCamera); Release] mounted) = None /\
  trackStops (trace (runOps [Acquire (Some frontCamera); Release] mounted))
  = [0%nat].
Proof.
  destruct (acquire_release_roundtrip mounted frontCamera sampleVideo eq_refl)
    as (Hs & _ & _ & Ht & _).
  split; [exact Hs|exact Ht].
Defined.

(** X5: The cleanup run when the component unmounts calls the [stopCamera] of
    the first render, whose [stream] is [null]: it stops no track and does
    not clear the handle, whatever stream is held by then: a camera that is
    running when the component goes away keeps running. *)
Theorem unmountCleanup_stops_no_track (s : State) :
  let s' := exec unmountCleanup s in
  completion unmountCleanup s = Normal tt /\
  trace s' = trace s /\ stream s' = stream s.
Proof.
  destruct s as [e p c f pv st [video|] cv t]; repeat split.
Qed.

(** ** The capture pipeline *)

(** X6: With both elements attached and a 2D context, [capturePhoto] sizes the
    canvas to the frame of the video, stores the encoded frame as the
    preview image and releases the camera: the handle is cleared, every
    track of a held stream is stopped, the video element loses its source.
    It does not touch the error: a message attached before stays. *)
Theorem capturePhoto_success_releases_camera (s : State) (frame : string)
    (video : VideoElement) (canvas : CanvasElement) :
  videoRef s = Some video -> canvasRef s = Some canvas ->
  context2d canvas = true ->
  let s' := exec (capturePhoto frame) s in
  completion (capturePhoto frame) s = Normal tt /\
  previewImage s' = Some frame /\
  stream s' = None /\ isCameraActive s' = false /\
  canvasRef s' = Some (mkCanvas true (videoWidth video) (videoHeight video)) /\
  videoRef s' = Some (mkVideo None (videoWidth video) (videoHeight video)) /\
  trackStops (trace s')
  = (trackStops (trace s)
       ++ match stream s with
          | Some mediaStream => getTracks mediaStream
          | None => []
          end)%list /\
  error s' = error s /\ selectedFile s' = selectedFile s /\
  isProcessing s' = isProcessing s.
Proof.
  destruct s as [e p c f pv [ms|] v cv t]; simpl; intros -> -> Hc;
    run; rewrite Hc; cbv beta iota;
    rewrite ?trackStops_app, ?trackStops_map, ?app_nil_r; repeat split.
Qed.

Lemma capturePhoto_success_releases_camera_witness :
  previewImage
    (exec (capturePhoto sampleFrame)
       (exec (startCamera (Some frontCamera)) mounted)) = Some sampleFrame /\
  stream
    (exec (capturePhoto sampleFrame)
       (exec (startCamera (Some frontCamera)) mounted)) = None.
Proof.
  destruct (capturePhoto_success_releases_camera
              (exec (startCamera (Some frontCamera)) mounted) sampleFrame
              (mkVideo (Some frontCamera) 640 480) sampleCanvas
              eq_refl eq_refl eq_refl) as (_ & Hp & Hs & _).
  split; [exact Hp|exact Hs].
Defined.

(** X7: Retaking after a capture does not bring the camera back: after a
    successful [capturePhoto] followed by [resetCapture] no stream is held
    and the camera is inactive, so the page shows the view with the camera
    button and the file input, not the camera view. *)
Theorem retake_after_capture_shows_start_view (s : State) (frame : string)
    (video : VideoElement) (canvas : CanvasElement) :
  videoRef s = Some video -> canvasRef s = Some canvas ->
  context2d canvas = true ->
  let s' := runOps [CaptureFromStream frame; Discard] s in
  previewImage s' = None /\ error s' = None /\ selectedFile s' = None /\
  stream s' = None /\ isCameraActive s' = false /\
  rendered s' CameraButton = true /\ rendered s' FileInput = true /\
  rendered s' CaptureButton = false /\ rendered s' ValidateButton = false.
Proof.
  destruct s as [e p c f pv [ms|] v cv t]; simpl; intros -> -> Hc;
    cbn [runOps fold_left handler]; run; rewrite Hc; repeat split.
Qed.

Lemma retake_after_capture_shows_start_view_witness :
  rendered
    (runOps [CaptureFromStream sampleFrame; Discard]
       (exec (startCamera (Some frontCamera)) mounted)) CameraButton = true.
Proof.
  destruct (retake_after_capture_shows_start_view
              (exec (startCamera (Some frontCamera)) mounted) sampleFrame
              (mkVideo (Some frontCamera) 640 480) sampleCanvas
              eq_refl eq_refl eq_refl) as (_ & _ & _ & _ & _ & Hr & _).
  exact Hr.
Defined.

(** X8: [resetCapture] clears the preview image, the selected file and the
    error and nothing else; repeated, it changes nothing more, and after it
    the preview view is not rendered. *)
Theorem resetCapture_clears_capture_only (s : State) :
  let s' := exec resetCapture s in
  completion resetCapture s = Normal tt /\
  controller s' = (None, isProcessing s, isCameraActive s, None, None,
                   stream s) /\
  videoRef s' = videoRef s /\ canvasRef s' = canvasRef s /\
  trace s' = trace s /\
  exec resetCapture s' = s' /\
  rendered s' ValidateButton = false /\ rendered s' RetakeButton = false.
Proof. destruct s as [e p c f pv st v cv t]. repeat split. Qed.

(** ** Uploads *)

(** A change event without a file leaves the whole state as it is: an
    error shown before is not cleared and the selected file is not reset. *)
Lemma handleFileUpload_without_file (s : State) (answer : ReadAnswer) :
  handleFileUpload None answer s = (Normal tt, s).
Proof. reflexivity. Qed.

(** X9: A file that fails validation never reaches the reader or the preview:
    whatever the reader would answer, [handleFileUpload] ends in the same
    state, with the message of the rejection attached, the preview image
    and the trace as before, and nothing thrown. *)
Theorem invalid_file_never_previewed (s : State) (file : File)
    (answer : ReadAnswer) :
  validate file <> None ->
  let s' := exec (handleFileUpload (Some file) answer) s in
  completion (handleFileUpload (Some file) answer) s = Normal tt /\
  previewImage s' = previewImage s /\
  (exists reason, validate file = Some reason /\
                  error s' = Some (rejectionMessage reason)) /\
  trace s' = trace s /\
  stream s' = stream s /\ isCameraActive s' = isCameraActive s /\
  s' = exec (handleFileUpload (Some file) ReadError) s.
Proof.
  intros Hv. destruct (validate file) as [reason|] eqn:E; [|congruence].
  unfold exec, completion.
  rewrite !(handleFileUpload_rejected s file reason _ E).
  repeat split. exists reason. split; reflexivity.
Qed.

Lemma invalid_file_never_previewed_witness :
  let big := mkFile "big.jpg" "image/jpeg" (6 * 1024 * 1024) in
  previewImage (exec (handleFileUpload (Some big)
                        (Loaded (Some sampleUpload))) initial) = None /\
  error (exec (handleFileUpload (Some big)
                 (Loaded (Some sampleUpload))) initial)
  = Some "L'image est trop volumineuse. Taille maximum: 5MB".
Proof.
  destruct (invalid_file_never_previewed initial
              (mkFile "big.jpg" "image/jpeg" (6 * 1024 * 1024))
              (Loaded (Some sampleUpload)) ltac:(discriminate))
    as (_ & Hp & (reason & Hr & He) & _).
  split; [exact Hp|].
  cbv in Hr. injection Hr as <-. exact He.
Defined.

(** X10: A valid file that the reader loads with a non-empty result becomes the
    preview image: the error is cleared, the file is the selected file, the
    preview view is rendered, and the camera state is not touched. *)
Theorem valid_file_becomes_preview (s : State) (file : File) (data : string) :
  validate file = None -> data <> "" ->
  let s' := exec (handleFileUpload (Some file) (Loaded (Some data))) s in
  completion (handleFileUpload (Some file) (Loaded (Some data))) s
  = Normal tt /\
  previewImage s' = Some data /\ error s' = None /\
  selectedFile s' = Some file /\
  rendered s' ValidateButton = true /\
  stream s' = stream s /\ isCameraActive s' = isCameraActive s /\
  isProcessing s' = isProcessing s /\ trace s' = trace s.
Proof.
  intros Hv Hd.
  assert (Ht : truthy (Some data) = true).
  { cbn [truthy]. destruct (String.eqb_spec data ""); [contradiction|].
    reflexivity. }
  destruct s as [e p c f pv st v cv t].
  unfold rendered. run. rewrite Hv. cbv beta iota. rewrite Ht.
  cbv beta iota. rewrite Ht. repeat split.
Qed.

Lemma valid_file_becomes_preview_witness :
  previewImage (exec (handleFileUpload (Some sampleJpeg)
                        (Loaded (Some sampleUpload))) initial)
  = Some sampleUpload.
Proof.
  destruct (valid_file_becomes_preview initial sampleJpeg sampleUpload
              eq_refl ltac:(discriminate)) as (_ & Hp & _).
  exact Hp.
Defined.

(** X11: A valid file that the reader fails to read, or loads with an empty
    result, is dropped silently: [handleFileUpload] completes normally with
    no error attached (the one shown before is cleared), the preview image
    as before and nothing logged.  The exception of the [onerror] callback
    is not caught by the handler. *)
Theorem read_failure_attaches_no_error (s : State) (file : File)
    (answer : ReadAnswer) :
  validate file = None ->
  answer = ReadError \/ answer = Loaded None \/ answer = Loaded (Some "") ->
  let s' := exec (handleFileUpload (Some file) answer) s in
  completion (handleFileUpload (Some file) answer) s = Normal tt /\
  error s' = None /\ previewImage s' = previewImage s /\
  selectedFile s' = Some file /\ trace s' = trace s.
Proof.
  intros Hv Ha. destruct s as [e p c f pv st v cv t].
  destruct Ha as [-> | [-> | ->]]; run; rewrite Hv; repeat split.
Qed.

Lemma read_failure_attaches_no_error_witness :
  error (exec (handleFileUpload (Some sampleJpeg) ReadError)
           (exec (startCamera None) initial)) = None.
Proof.
  destruct (read_failure_attaches_no_error (exec (startCamera None) initial)
              sampleJpeg ReadError eq_refl (or_introl eq_refl))
    as (_ & He & _).
  exact He.
Defined.

(** ** The orchestrator *)

(** X12: When the classifier call fails, [processImage] attaches the generic
    error, keeps the preview image (the preview view stays, its validate
    button enabled again), resets the processing flag, clears the selected
    file, and issues no persistence request, notice or navigation: the
    failure is only logged. *)
Theorem processImage_classifier_failure (s : State) (image : string)
    (persistence : FetchAnswer) :
  previewImage s = Some image -> truthy (Some image) = true ->
  let s' := exec (processImage None persistence) s in
  completion (processImage None persistence) s = Normal tt /\
  error s' = Some processingErrorMessage /\
  previewImage s' = Some image /\ isProcessing s' = false /\
  selectedFile s' = None /\ enabled s' ValidateButton = true /\
  trace s' = (trace s ++ [ConsoleError "Processing error:"])%list /\
  persistenceCalls (trace s') = persistenceCalls (trace s) /\
  navigations (trace s') = navigations (trace s).
Proof.
  intros Hp Ht. unfold exec, completion.
  rewrite (processImage_classifier_fails s image persistence Hp Ht).
  cbn [fst snd error previewImage isProcessing selectedFile trace].
  unfold enabled, rendered, disabled, persistenceCalls, navigations.
  cbn [previewImage isProcessing]. rewrite Ht, !count_app. cbn.
  repeat split; lia.
Qed.

Lemma processImage_classifier_failure_witness :
  error (exec (processImage None (Responds 200)) previewReady)
  = Some processingErrorMessage /\
  previewImage (exec (processImage None (Responds 200)) previewReady)
  = Some sampleFrame.
Proof.
  destruct (processImage_classifier_failure previewReady sampleFrame
              (Responds 200) eq_refl eq_refl) as (_ & He & Hp & _).
  split; [exact He|exact Hp].
Defined.

(** X13: Without a preview image ([null] or the empty string), [processImage]
    returns at once: the state is as it was, the processing flag is not
    set, the error is not cleared, and nothing is sent. *)
Theorem processImage_needs_preview (s : State) (classifier : option Z)
    (persistence : FetchAnswer) :
  previewImage s = None \/ previewImage s = Some "" ->
  processImage classifier persistence s = (Normal tt, s).
Proof.
  intros H. apply processImage_without_preview.
  destruct H as [-> | ->]; reflexivity.
Qed.

Lemma processImage_needs_preview_witness :
  processImage (Some 15) (Responds 200) initial = (Normal tt, initial).
Proof.
  apply (processImage_needs_preview initial (Some 15) (Responds 200)).
  left. reflexivity.
Defined.

(** The five ways [processImage] can end. *)
Lemma processImage_cases (s : State) (classifier : option Z)
    (persistence : FetchAnswer) :
  processImage classifier persistence s = (Normal tt, s)
  /\ truthy (previewImage s) = false
  \/ exists image,
       previewImage s = Some image /\ truthy (Some image) = true /\
       exists err evs,
         processImage classifier persistence s =
         (Normal tt,
          mkState err false (isCameraActive s) None (Some image) (stream s)
            (videoRef s) (canvasRef s) (trace s ++ evs)) /\
         ((exists age status,
             classifier = Some age /\ inRange age = true /\
             persistence = Responds status /\ err = None /\
             evs = [FetchPost "/api/photos" image age;
                    Alert (confirmationMessage age); RouterPush discordUrl])
          \/ (exists age,
                classifier = Some age /\ inRange age = true /\
                persistence = Rejects /\ err = Some processingErrorMessage /\
                evs = [FetchPost "/api/photos" image age;
                       ConsoleError "Processing error:"])
          \/ (exists age,
                classifier = Some age /\ inRange age = false /\
                err = Some (outOfRangeMessage age) /\ evs = [])
          \/ (classifier = None /\ err = Some processingErrorMessage /\
              evs = [ConsoleError "Processing error:"])).
Proof.
  destruct (truthy (previewImage s)) eqn:Ht.
  - right. destruct (previewImage s) as [image|] eqn:Hp; [|discriminate Ht].
    exists image. repeat split; [exact Ht|].
    destruct classifier as [age|].
    + destruct (inRange age) eqn:Hr.
      * destruct persistence as [status|].
        -- eexists _, _. split;
             [apply (processImage_accepted s image age status Hp Ht Hr)|].
           left. exists age, status. repeat split. exact Hr.
        -- eexists _, _. split;
             [apply (processImage_persistence_rejected s image age Hp Ht Hr)|].
           right; left. exists age. repeat split. exact Hr.
      * exists (Some (outOfRangeMessage age)), [].
        rewrite app_nil_r. split;
          [apply (processImage_out_of_range s image age persistence Hp Ht Hr)|].
        right; right; left. exists age. repeat split. exact Hr.
    + eexists _, _. split;
        [apply (processImage_classifier_fails s image persistence Hp Ht)|].
      right; right; right. repeat split.
  - left. split; [|reflexivity].
    apply (processImage_without_preview s classifier persistence Ht).
Qed.

(** X14: [processImage] never throws and never leaves the processing flag set:
    whatever the classifier and the persistence request answer, it completes
    normally, with the flag reset when a preview image was held and the
    flag untouched otherwise; the preview image, the stream handle and the
    camera flag are never changed. *)
Theorem processImage_always_settles (s : State) (classifier : option Z)
    (persistence : FetchAnswer) :
  let s' := exec (processImage classifier persistence) s in
  completion (processImage classifier persistence) s = Normal tt /\
  isProcessing s' = negb (truthy (previewImage s)) && isProcessing s /\
  previewImage s' = previewImage s /\
  stream s' = stream s /\ isCameraActive s' = isCameraActive s.
Proof.
  unfold exec, completion.
  destruct (processImage_cases s classifier persistence)
    as [[-> Ht] | (image & Hp & Ht & err & evs & -> & _)].
  - rewrite Ht. repeat split.
  - rewrite Hp, Ht. repeat split.
Qed.

(** X15: A navigation, a notice or a persistence request is issued by
    [processImage] only for an age between 13 and 17, and the notice and the
    navigation only when the persistence request was answered; the
    persistence request then carries the preview image and that age. *)
Theorem processImage_effects_need_accepted_age (s : State)
    (classifier : option Z) (persistence : FetchAnswer) :
  let s' := exec (processImage classifier persistence) s in
  (persistenceCalls (trace s') <> persistenceCalls (trace s) ->
   exists image age,
     previewImage s = Some image /\ classifier = Some age /\
     13 <= age <= 17 /\
     In (FetchPost "/api/photos" image age) (trace s')) /\
  (navigations (trace s') <> navigations (trace s) \/
   notices (trace s') <> notices (trace s) ->
   exists age status,
     classifier = Some age /\ 13 <= age <= 17 /\
     persistence = Responds status).
Proof.
  unfold exec.
  destruct (processImage_cases s classifier persistence)
    as [[-> Ht] | (image & Hp & Ht & err & evs & -> & Hcases)];
    cbn [snd trace].
  - split; [intros H|intros [H|H]]; contradiction H; reflexivity.
  - unfold persistenceCalls, navigations, notices. rewrite !count_app.
    destruct Hcases as [(age & status & -> & Hr & -> & -> & ->)
                       |[(age & -> & Hr & -> & -> & ->)
                        |[(age & -> & Hr & -> & ->)
                         |(-> & -> & ->)]]]; cbn; split.
    + intros _. exists image, age. apply inRange_spec in Hr.
      split; [exact Hp|]. split; [reflexivity|]. split; [lia|].
      apply in_or_app. right. left. reflexivity.
    + intros _. exists age, status. apply inRange_spec in Hr.
      split; [reflexivity|]. split; [lia|reflexivity].
    + intros _. exists image, age. apply inRange_spec in Hr.
      split; [exact Hp|]. split; [reflexivity|]. split; [lia|].
      apply in_or_app. right. left. reflexivity.
    + intros [H|H]; contradiction H; lia.
    + intros H; contradiction H; lia.
    + intros [H|H]; contradiction H; lia.
    + intros H; contradiction H; lia.
    + intros [H|H]; contradiction H; lia.
Qed.

Lemma processImage_effects_need_accepted_age_witness :
  exists age status,
    Some 15 = Some age /\ 13 <= age <= 17 /\ Responds 200 = Responds status.
Proof.
  apply (proj2 (processImage_effects_need_accepted_age previewReady
                  (Some 15) (Responds 200))).
  left. cbv. discriminate.
Defined.

(** X16: A rejection or a failure can be retried without capturing again:
    whichever way a first [processImage] ended (an age out of range, a failed
    classifier call, a rejected persistence request), a second one whose age
    is accepted clears the error, sends the same image and navigates. *)
Theorem processImage_retry_succeeds (s : State) (image : string)
    (first : option Z) (persistence : FetchAnswer) (age status : Z) :
  previewImage s = Some image -> truthy (Some image) = true ->
  13 <= age <= 17 ->
  let failed := exec (processImage first persistence) s in
  let s' := exec (processImage (Some age) (Responds status)) failed in
  error s' = None /\ previewImage s' = Some image /\
  isProcessing s' = false /\
  trace s' = (trace failed ++ [FetchPost "/api/photos" image age;
                               Alert (confirmationMessage age);
                               RouterPush discordUrl])%list.
Proof.
  intros Hp Ht Hr. apply inRange_spec in Hr. cbv zeta.
  destruct (processImage_keeps_camera s first persistence)
    as (_ & _ & Hkeep).
  cbv zeta in Hkeep. rewrite Hp in Hkeep.
  set (failed := exec (processImage first persistence) s) in *.
  unfold exec.
  rewrite (processImage_accepted failed image age status Hkeep Ht Hr).
  repeat split.
Qed.

Lemma processImage_retry_succeeds_witness :
  error (exec (processImage (Some 15) (Responds 200))
           (exec (processImage (Some 25) (Responds 200)) previewReady))
  = None.
Proof.
  destruct (processImage_retry_succeeds previewReady sampleFrame (Some 25)
              (Responds 200) 15 200 eq_refl eq_refl ltac:(lia))
    as (He & _).
  exact He.
Defined.

(** ** Sequences of operations *)

Ltac handler_cases s o :=
  destruct s as [e p c f [image|] [held|] [video|] [canvas|] t];
  destruct o as [[mediaStream|]| |frame|[file|] [[result|]| |]
                | |[age|] [status|]];
  cbn [handler]; repeat first [progress run | progress split_conditions].

Lemma filter_TrackStop (p : Event -> bool) (l : list Track) :
  (forall k, p (TrackStop k) = false) -> filter p (map TrackStop l) = [].
Proof.
  intros Hp. induction l as [|k l IH]; [reflexivity|].
  simpl. now rewrite Hp.
Qed.

Lemma handler_keeps_flag_and_handle (s : State) (o : Op) :
  isCameraActive s = isSome (stream s) ->
  isCameraActive (exec (handler o) s) = isSome (stream (exec (handler o) s)).
Proof.
  handler_cases s o; cbn [isSome]; intros H; try exact H; reflexivity.
Qed.

Lemma handler_keeps_not_processing (s : State) (o : Op) :
  isProcessing s = false -> isProcessing (exec (handler o) s) = false.
Proof.
  handler_cases s o; intros H; try exact H; reflexivity.
Qed.

Lemma handler_keeps_balanced (s : State) (o : Op) :
  balanced (trace s) -> balanced (trace (exec (handler o) s)).
Proof.
  handler_cases s o; intros H; try exact H;
    unfold balanced, navigations, notices, persistenceCalls in *;
    rewrite ?count_app, ?filter_TrackStop by reflexivity; cbn; lia.
Qed.

(** An invariant of the handlers and of the commits holds along every
    sequence of operations and along every sequence of page events. *)
Lemma invariant_along_runs (P : State -> Prop) :
  (forall s o, P s -> P (exec (handler o) s)) ->
  (forall s video canvas,
     P s -> P (exec (setVideo video ;; setCanvas canvas) s)) ->
  forall s, P s ->
    (forall ops, P (runOps ops s)) /\ (forall evs, P (runUi evs s)).
Proof.
  intros Hh Hc s Hs. split.
  - intros ops. revert s Hs.
    induction ops as [|o ops IH]; intros s Hs; [exact Hs|].
    apply IH, Hh, Hs.
  - intros evs. revert s Hs.
    induction evs as [|ev evs IH]; intros s Hs; [exact Hs|].
    apply IH. destruct ev as [o|video canvas]; cbn [dispatch].
    + destruct (enabled s (control o)); [apply Hh, Hs|exact Hs].
    + apply Hc, Hs.
Qed.

(** X17: The camera flag and the stream handle go together: from a state in
    which [isCameraActive] tells whether a stream is held, every sequence of
    operations, in any order and whatever the host answers, and every
    sequence of page events ends in such a state. *)
Theorem camera_flag_follows_handle (s : State) :
  isCameraActive s = isSome (stream s) ->
  (forall ops,
     isCameraActive (runOps ops s) = isSome (stream (runOps ops s))) /\
  (forall evs,
     isCameraActive (runUi evs s) = isSome (stream (runUi evs s))).
Proof.
  apply (invariant_along_runs
           (fun s => isCameraActive s = isSome (stream s))).
  - apply handler_keeps_flag_and_handle.
  - intros s0 video canvas H. exact H.
Qed.

Lemma camera_flag_follows_handle_witness :
  isCameraActive
    (runOps [Acquire (Some frontCamera);
             CaptureFromFile (Some sampleJpeg) (Loaded (Some sampleUpload));
             Release] mounted)
  = isSome (stream
    (runOps [Acquire (Some frontCamera);
             CaptureFromFile (Some sampleJpeg) (Loaded (Some sampleUpload));
             Release] mounted)).
Proof.
  apply (proj1 (camera_flag_follows_handle mounted eq_refl)).
Defined.

(** X18: Operations that have completed never leave the controller processing:
    from a state with the processing flag off, every sequence of operations
    and every sequence of page events ends with the flag off. *)
Theorem processing_flag_off_between_operations (s : State) :
  isProcessing s = false ->
  (forall ops, isProcessing (runOps ops s) = false) /\
  (forall evs, isProcessing (runUi evs s) = false).
Proof.
  apply (invariant_along_runs (fun s => isProcessing s = false)).
  - apply handler_keeps_not_processing.
  - intros s0 video canvas H. exact H.
Qed.

Lemma processing_flag_off_between_operations_witness :
  isProcessing
    (runOps [ProcessImage None Rejects; ProcessImage (Some 15) Rejects]
       previewReady) = false.
Proof.
  apply (proj1 (processing_flag_off_between_operations previewReady eq_refl)).
Defined.

(** X19: Along every sequence of operations, in any order and whatever the host
    answers, each navigation comes with one confirmation notice and there
    are never more navigations than persistence requests. *)
Theorem navigations_follow_persistence (s : State) :
  balanced (trace s) ->
  (forall ops, balanced (trace (runOps ops s))) /\
  (forall evs, balanced (trace (runUi evs s))).
Proof.
  apply (invariant_along_runs (fun s => balanced (trace s))).
  - apply handler_keeps_balanced.
  - intros s0 video canvas H. exact H.
Qed.

Lemma navigations_follow_persistence_witness :
  balanced
    (trace (runOps [ProcessImage (Some 15) Rejects;
                    ProcessImage (Some 16) (Responds 201)] previewReady)).
Proof.
  apply (proj1 (navigations_follow_persistence previewReady
                  ltac:(cbv; split; constructor))).
Defined.

(** ** The page *)

(** X20: While a classification is in flight (processing flag set, preview image
    held) the page runs no handler at all: the validate, retake, camera,
    file and capture controls are disabled and the stop button is not
    rendered, so every user event leaves the state as it is.  In particular
    no second classification can be started. *)
Theorem page_ignores_events_while_processing (s : State) (o : Op) :
  isProcessing s = true -> truthy (previewImage s) = true ->
  enabled s (control o) = false /\ dispatch s (User o) = s.
Proof.
  intros Hp Ht.
  assert (He : enabled s (control o) = false).
  { unfold enabled, rendered, disabled. rewrite Hp, Ht.
    destruct o; reflexivity. }
  split; [exact He|]. cbn [dispatch]. now rewrite He.
Qed.

Lemma page_ignores_events_while_processing_witness :
  dispatch inFlight (User (ProcessImage (Some 15) (Responds 200))) = inFlight.
Proof.
  apply (page_ignores_events_while_processing inFlight
           (ProcessImage (Some 15) (Responds 200))); reflexivity.
Defined.

Lemma pageStep_keeps_camera_off (video : VideoElement) (canvas : CanvasElement)
    (s : State) (o : Op) :
  isCameraActive s = false -> videoRef s = None ->
  let s' := reconcile video canvas (dispatch s (User o)) in
  isCameraActive s' = false /\ videoRef s' = None /\
  stream s' = stream s /\ trace s' = trace s \/
  isCameraActive s' = false /\ videoRef s' = None /\
  stream s' = stream s /\
  exists evs, trace s' = (trace s ++ evs)%list /\ trackStops evs = [].
Proof.
  intros Hc Hv. destruct s as [e p c f pv st v cv t].
  cbn [isCameraActive videoRef] in Hc, Hv. subst c v.
  unfold reconcile, dispatch, enabled, rendered, disabled.
  cbn [previewImage isCameraActive isProcessing control].
  destruct o as [[mediaStream|]| |frame|[file|] [[result|]| |]
                | |[age|] [status|]];
    cbn [control handler]; rewrite ?andb_false_r; cbn [andb];
    repeat match goal with
    | |- context [if (?b && negb p)%bool then _ else _] =>
        destruct (b && negb p)%bool
    end;
    destruct pv as [image|];
    repeat first [progress run | progress split_conditions];
    rewrite ?andb_false_r; cbv beta iota;
    try (left; repeat split; fail);
    right; repeat split; eexists; split;
      rewrite <- ?app_assoc; try reflexivity.
Qed.

(** X21: On the page the camera never becomes active.  The video element is
    attached only while the camera view is rendered, and that view needs
    the camera flag, which [startCamera] sets only when the video element is
    attached.  So from the first render on, whatever the user does and the
    host answers: the camera flag stays off, no stream handle is ever
    stored, no track is ever stopped, and the capture and stop buttons are
    never rendered; a stream obtained by a camera request is dropped. *)
Theorem page_camera_never_activates (video : VideoElement)
    (canvas : CanvasElement) (ops : list Op) (s : State) :
  isCameraActive s = false -> videoRef s = None ->
  let s' := runPage video canvas ops s in
  isCameraActive s' = false /\ videoRef s' = None /\
  stream s' = stream s /\
  trackStops (trace s') = trackStops (trace s) /\
  rendered s' CaptureButton = false /\ rendered s' StopButton = false.
Proof.
  intros Hc Hv. cbv zeta.
  assert (H : isCameraActive (runPage video canvas ops s) = false /\
              videoRef (runPage video canvas ops s) = None /\
              stream (runPage video canvas ops s) = stream s /\
              trackStops (trace (runPage video canvas ops s))
              = trackStops (trace s)).
  { revert s Hc Hv. induction ops as [|o ops IH]; intros s Hc Hv.
    - repeat split; assumption.
    - cbn [runPage fold_left].
      destruct (pageStep_keeps_camera_off video canvas s o Hc Hv)
        as [(Hc' & Hv' & Hs' & Ht') | (Hc' & Hv' & Hs' & evs & Ht' & He)];
        destruct (IH _ Hc' Hv') as (H1 & H2 & H3 & H4);
        unfold runPage in *; rewrite H1, H2, H3, H4, Hs', Ht';
        rewrite ?trackStops_app, ?He, ?app_nil_r; repeat split. }
  destruct H as (H1 & H2 & H3 & H4).
  unfold rendered. rewrite H1, !andb_false_r. repeat split; assumption.
Qed.

Lemma page_camera_never_activates_witness :
  isCameraActive
    (runPage sampleVideo sampleCanvas
       [Acquire (Some frontCamera); CaptureFromStream sampleFrame] initial)
  = false /\
  stream
    (runPage sampleVideo sampleCanvas
       [Acquire (Some frontCamera); CaptureFromStream sampleFrame] initial)
  = None.
Proof.
  destruct (page_camera_never_activates sampleVideo sampleCanvas
              [Acquire (Some frontCamera); CaptureFromStream sampleFrame]
              initial eq_refl eq_refl) as (Hc & _ & Hs & _).
  split; [exact Hc|exact Hs].
Defined.

Lemma truthy_nonempty (data : string) : data <> "" -> truthy (Some data) = true.
Proof.
  intros Hd. cbn [truthy]. destruct (String.eqb_spec data ""); [contradiction|].
  reflexivity.
Qed.

Lemma handleFileUpload_loaded (s : State) (file : File) (data : string) :
  validate file = None -> truthy (Some data) = true ->
  handleFileUpload (Some file) (Loaded (Some data)) s =
  (Normal tt,
   mkState None (isProcessing s) (isCameraActive s) (Some file) (Some data)
     (stream s) (videoRef s) (canvasRef s) (trace s)).
Proof.
  intros Hv Ht. destruct s as [e p c f pv st v cv t].
  run. rewrite Hv. cbv beta iota. rewrite Ht. reflexivity.
Qed.

(** With a preview image held, a commit detaches the video and canvas
    elements. *)
Lemma reconcile_preview (video : VideoElement) (canvas : CanvasElement)
    (s : State) :
  truthy (previewImage s) = true ->
  reconcile video canvas s =
  mkState (error s) (isProcessing s) (isCameraActive s) (selectedFile s)
    (previewImage s) (stream s) None None (trace s).
Proof.
  intros Ht. unfold reconcile, rendered. rewrite Ht. reflexivity.
Qed.

(** X22: The upload flow of the page, end to end: on the first render, choosing
    a valid file that the reader loads and then validating it, with an
    accepted age and an answered persistence request, sends exactly the
    loaded data URL with that age, shows the notice and navigates to the
    fixed address, once each and in this order. *)
Theorem page_upload_flow (video : VideoElement) (canvas : CanvasElement)
    (file : File) (data : string) (age status : Z) :
  validate file = None -> data <> "" -> 13 <= age <= 17 ->
  let s' := runPage video canvas
              [CaptureFromFile (Some file) (Loaded (Some data));
               ProcessImage (Some age) (Responds status)] initial in
  trace s' = [FetchPost "/api/photos" data age;
              Alert (confirmationMessage age);
              RouterPush "https://discord.gg/kphrm4ubxQ"] /\
  error s' = None /\ isProcessing s' = false /\ selectedFile s' = None /\
  previewImage s' = Some data.
Proof.
  intros Hv Hd Hr. apply inRange_spec in Hr.
  pose proof (truthy_nonempty data Hd) as Ht.
  set (s1 := mkState None false false (Some file) (Some data) None None None
               []).
  assert (E1 : reconcile video canvas
                 (dispatch initial
                    (User (CaptureFromFile (Some file) (Loaded (Some data)))))
               = s1).
  { cbn [dispatch control handler].
    change (enabled initial FileInput) with true. cbv iota. unfold exec.
    rewrite (handleFileUpload_loaded initial file data Hv Ht). cbn [snd].
    rewrite reconcile_preview by exact Ht. reflexivity. }
  assert (E2 : reconcile video canvas
                 (dispatch s1
                    (User (ProcessImage (Some age) (Responds status))))
               = mkState None false false None (Some data) None None None
                   [FetchPost "/api/photos" data age;
                    Alert (confirmationMessage age);
                    RouterPush discordUrl]).
  { cbn [dispatch control handler].
    unfold enabled, rendered, disabled. cbn [previewImage isProcessing s1].
    rewrite Ht. cbn [andb negb]. unfold exec.
    rewrite (processImage_accepted s1 data age status eq_refl Ht Hr).
    cbn [snd]. rewrite reconcile_preview by exact Ht. reflexivity. }
  cbv zeta. unfold runPage. cbn [fold_left]. rewrite E1, E2.
  repeat split.
Qed.

Lemma page_upload_flow_witness :
  trace (runPage sampleVideo sampleCanvas
           [CaptureFromFile (Some sampleJpeg) (Loaded (Some sampleUpload));
            ProcessImage (Some 15) (Responds 200)] initial)
  = [FetchPost "/api/photos" sampleUpload 15;
     Alert (confirmationMessage 15);
     RouterPush "https://discord.gg/kphrm4ubxQ"].
Proof.
  destruct (page_upload_flow sampleVideo sampleCanvas sampleJpeg sampleUpload
              15 200 eq_refl ltac:(discriminate) ltac:(lia)) as (Ht & _).
  exact Ht.
Defined.

(** X23: A file that fails validation cannot be submitted: chosen while no
    preview image is held, it leaves the preview view unrendered, so the
    validate event that follows runs no handler and nothing is sent. *)
Theorem page_invalid_upload_cannot_be_submitted (s : State) (file : File)
    (answer : ReadAnswer) (classifier : option Z) (persistence : FetchAnswer) :
  validate file <> None -> truthy (previewImage s) = false ->
  let s1 := dispatch s (User (CaptureFromFile (Some file) answer)) in
  rendered s1 ValidateButton = false /\
  dispatch s1 (User (ProcessImage classifier persistence)) = s1 /\
  trace s1 = trace s.
Proof.
  intros Hv Ht. destruct (validate file) as [reason|] eqn:E; [|congruence].
  cbv zeta. cbn [dispatch control handler].
  destruct (enabled s FileInput).
  - assert (E1 : exec (handleFileUpload (Some file) answer) s =
                 mkState (Some (rejectionMessage reason)) (isProcessing s)
                   (isCameraActive s) (Some file) (previewImage s) (stream s)
                   (videoRef s) (canvasRef s) (trace s)).
    { unfold exec. now rewrite (handleFileUpload_rejected s file reason
                                  answer E). }
    rewrite E1. unfold enabled, rendered. cbn [previewImage trace].
    rewrite Ht. repeat split.
  - unfold enabled, rendered. rewrite Ht. repeat split.
Qed.

Lemma page_invalid_upload_cannot_be_submitted_witness :
  let big := mkFile "big.jpg" "image/jpeg" (6 * 1024 * 1024) in
  let s1 := dispatch initial (User (CaptureFromFile (Some big)
                                      (Loaded (Some sampleUpload)))) in
  dispatch s1 (User (ProcessImage (Some 15) (Responds 200))) = s1.
Proof.
  destruct (page_invalid_upload_cannot_be_submitted initial
              (mkFile "big.jpg" "image/jpeg" (6 * 1024 * 1024))
              (Loaded (Some sampleUpload)) (Some 15) (Responds 200)
              ltac:(discriminate) eq_refl) as (_ & Hd & _).
  exact Hd.
Defined.

(** ** C4: the stream handle and the preview image *)

Lemma handler_keeps_no_handle (s : State) (o : Op) :
  videoRef s = None -> stream s = None ->
  videoRef (exec (handler o) s) = None /\ stream (exec (handler o) s) = None.
Proof.
  handler_cases s o; intros Hv Hs; try discriminate Hv; try discriminate Hs;
    split; reflexivity.
Qed.

Lemma runOps_keeps_no_handle (ops : list Op) :
  forall s, videoRef s = None -> stream s = None ->
    stream (runOps ops s) = None.
Proof.
  induction ops as [|o ops IH]; intros s Hv Hs; [exact Hs|].
  destruct (handler_keeps_no_handle s o Hv Hs) as [Hv' Hs'].
  exact (IH _ Hv' Hs').
Qed.

Lemma reconcile_keeps_cameraInvariant (video : VideoElement)
    (canvas : CanvasElement) (s : State) :
  cameraInvariant s -> cameraInvariant (reconcile video canvas s).
Proof.
  intros Hinv. unfold reconcile.
  destruct (rendered s CaptureButton); exact Hinv.
Qed.

Lemma runPage_keeps_cameraInvariant (video : VideoElement)
    (canvas : CanvasElement) (ops : list Op) :
  forall s, cameraInvariant s -> cameraInvariant (runPage video canvas ops s).
Proof.
  induction ops as [|o ops IH]; intros s Hinv; [exact Hinv|].
  apply IH, reconcile_keeps_cameraInvariant, dispatch_keeps_cameraInvariant,
    Hinv.
Qed.

(** C4: from an idle state of the component (no stream handle, no preview
    image, camera off, nothing in flight, and the video element not
    attached, as on the first render), every sequence of the operations
    acquire, release, captureFromStream, captureFromFile, discard and
    processImage, in any order and whatever the host answers, ends in a
    state in which the stream handle and the preview image are not held
    together.  So does every sequence of events of the page, with the
    elements behind the refs attached and detached as React does, or at any
    time. *)
Theorem operations_keep_exclusive (s0 : State) :
  idle s0 = true -> videoRef s0 = None ->
  (forall ops, exclusive (runOps ops s0) = true) /\
  (forall video canvas ops, exclusive (runPage video canvas ops s0) = true) /\
  (forall evs, exclusive (runUi evs s0) = true).
Proof.
  intros Hidle Hv. split; [|split].
  - intros ops. unfold exclusive.
    rewrite (runOps_keeps_no_handle ops s0 Hv); [reflexivity|].
    unfold idle in Hidle. destruct (stream s0); [discriminate Hidle|].
    reflexivity.
  - intros video canvas ops.
    apply cameraInvariant_exclusive, runPage_keeps_cameraInvariant,
      idle_cameraInvariant, Hidle.
  - intros evs. apply runUi_exclusive, Hidle.
Qed.

Lemma operations_keep_exclusive_witness :
  exclusive
    (runOps [Acquire (Some frontCamera);
             CaptureFromFile (Some sampleJpeg) (Loaded (Some sampleUpload));
             CaptureFromStream sampleFrame;
             ProcessImage (Some 15) (Responds 200);
             Discard; Release] initial)
  = true.
Proof.
  apply (proj1 (operations_keep_exclusive initial eq_refl eq_refl)).
Defined.
